(** * DIDComm message classes: V1ProposeCredentialMessage and BatchPickupMessage

    A shallow embedding of
    [packages/core/src/modules/credentials/protocol/v1/messages/V1ProposeCredentialMessage.ts]
    (which also carries the text of [BatchPickupMessage.ts]).

    Both classes extend [AgentMessage].  Their constructors copy the fields of
    an options bundle into the instance and take the message identifier from
    the bundle or from [generateId]; the decorators on the fields declare the
    wire names and the format constraints. *)

From Stdlib Require Import SpecFloat Ascii String DecimalString.
From stdpp Require Import base option strings list gmap.

Local Open Scope string_scope.

(** ** JavaScript values

    The values a field can hold at run time.  [Obj] is the type of the object
    values (class instances on the instance side, plain objects on the wire
    side); numbers are IEEE 754 doubles. *)

Inductive JsValue (Obj : Type) : Type :=
| JsUndefined
| JsNull
| JsBoolean (b : bool)
| JsNumber (x : spec_float)
| JsString (s : string)
| JsObject (o : Obj).

Arguments JsUndefined {Obj}.
Arguments JsNull {Obj}.
Arguments JsBoolean {Obj} b.
Arguments JsNumber {Obj} x.
Arguments JsString {Obj} s.
Arguments JsObject {Obj} o.

(** [ToBoolean]: the truthiness that [if (v)] and [v || w] test. *)
Definition ToBoolean {Obj} (v : JsValue Obj) : bool :=
  match v with
  | JsUndefined | JsNull => false
  | JsBoolean b => b
  | JsNumber (S754_zero _) | JsNumber S754_nan => false
  | JsNumber _ => true
  | JsString s => negb (String.eqb s "")
  | JsObject _ => true
  end.

(** [Number.isInteger]: finite and without a fractional part.  A finite
    double is [m * 2^e]. *)
Definition isInteger (x : spec_float) : bool :=
  match x with
  | S754_zero _ => true
  | S754_finite _ m e =>
      if (0 <=? e)%Z then true else (Z.pos m mod 2 ^ (- e) =? 0)%Z
  | S754_infinity _ | S754_nan => false
  end.

(** An optional string property ([name?: string]) as a run-time value. *)
Definition ofString {Obj} (v : option string) : JsValue Obj :=
  match v with
  | Some s => JsString s
  | None => JsUndefined
  end.

Definition mapObject {A B} (f : A -> B) (v : JsValue A) : JsValue B :=
  match v with
  | JsUndefined => JsUndefined
  | JsNull => JsNull
  | JsBoolean b => JsBoolean b
  | JsNumber x => JsNumber x
  | JsString s => JsString s
  | JsObject o => JsObject (f o)
  end.

(** ** utils/messageType *)

Record ParsedMessageType := { messageTypeUri : string }.

(** Modelled from the spec: [parseMessageType] of [utils/messageType], which
    the source file imports.  The parsed value keeps the URI it was built
    from as [messageTypeUri], the only part the two classes read. *)
Definition parseMessageType (messageType : string) : ParsedMessageType :=
  {| messageTypeUri := messageType |}.

(** ** AgentMessage

    The base class supplies [generateId].  Its result differs from call to
    call, so the generator state [G] is threaded through the constructors. *)

Class IdSource (G : Type) := generateId : G -> string * G.

(** [v ?? this.generateId()]: the right operand runs only when [v] is
    [undefined] (or [null]). *)
Definition nullishOr `{IdSource G} (v : option string) (g : G) : string * G :=
  match v with
  | Some s => (s, g)
  | None => generateId g
  end.

(** [v || this.generateId()]: the right operand runs whenever [v] is falsy. *)
Definition logicalOr `{IdSource G} (v : option string) (g : G) : string * G :=
  match v with
  | Some s =>
      if ToBoolean (JsString (Obj := Empty_set) s) then (s, g) else generateId g
  | None => generateId g
  end.

(** A generator for concrete runs: the n-th identifier is ["msg-"] followed
    by n in decimal. *)
Definition counterId (n : nat) : string :=
  "msg-" ++ NilEmpty.string_of_uint (Nat.to_uint n).

Definition counterGenerateId (n : nat) : string * nat := (counterId n, S n).

(** ** Field decorators

    The decorators attach metadata to the fields; two passes outside the
    classes read it: validation (class-validator) and the mapping to the
    wire object (class-transformer). *)

(** A failed constraint carries the text given with the decorator, or the
    framework's own text. *)
Inductive Message : Type :=
| DefaultMessage
| CustomMessage (text : string).

(** A field-level validation error: the property, its failed constraints by
    name, and the errors of a nested object. *)
#[warnings="-register-all"] Inductive ValidationError : Type := mkValidationError {
  property : string;
  constraints : list (string * Message);
  children : list ValidationError
}.

Section Decorators.
Context {T Obj Plain : Type}.

Inductive Validator : Type :=
| IsString
| IsInt
| Matches (pattern : string -> bool)
| IsInstance (cls : Obj -> bool)
| ValidateNested (validateObject : Obj -> list ValidationError).

Record ValidationRule := {
  validator : Validator;
  message : Message
}.

(** What the decorators of one field declare: [expose] is the name given
    to [@Expose], [isOptional] the presence of [@IsOptional()]; [get] reads
    the field. *)
Record PropertyMetadata := {
  propertyName : string;
  get : T -> JsValue Obj;
  expose : option string;
  isOptional : bool;
  rules : list ValidationRule
}.

Definition constraintName (v : Validator) : string :=
  match v with
  | IsString => "isString"
  | IsInt => "isInt"
  | Matches _ => "matches"
  | IsInstance _ => "isInstance"
  | ValidateNested _ => "nestedValidation"
  end.

(** Modelled from the spec: the checks of the external validation framework
    (class-validator), which is not part of the source file.  [IsString]
    wants a string, [IsInt] a number that is an integer, [Matches] a string
    the pattern matches, [IsInstance] an object of the class, and
    [ValidateNested] an object (or nothing) to descend into. *)
Definition passes (v : Validator) (x : JsValue Obj) : bool :=
  match v, x with
  | IsString, JsString _ => true
  | IsInt, JsNumber n => isInteger n
  | Matches pattern, JsString s => pattern s
  | IsInstance cls, JsObject o => cls o
  | ValidateNested _, (JsObject _ | JsUndefined | JsNull) => true
  | _, _ => false
  end.

Definition nestedErrors (v : Validator) (x : JsValue Obj)
    : list ValidationError :=
  match v, x with
  | ValidateNested validateObject, JsObject o => validateObject o
  | _, _ => []
  end.

Definition isEmpty (x : JsValue Obj) : bool :=
  match x with
  | JsUndefined | JsNull => true
  | _ => false
  end.

(** Modelled from the spec: the external validation pass on one field,
    which is not part of the source file.  An optional field that is unset
    is skipped; otherwise every declared constraint is evaluated and the
    failures are reported together as one field-level error. *)
Definition validateProperty (md : PropertyMetadata) (this : T)
    : option ValidationError :=
  let x := get md this in
  if isOptional md && isEmpty x then None
  else
    let failed :=
      omap (fun r =>
              if passes (validator r) x then None
              else Some (constraintName (validator r), message r))
           (rules md) in
    let nested := flat_map (fun r => nestedErrors (validator r) x) (rules md) in
    match failed, nested with
    | [], [] => None
    | _, _ => Some (mkValidationError (propertyName md) failed nested)
    end.

(** Modelled from the spec: the external validation pass over the fields of
    a class, in the order of the table. *)
Definition validate (metadata : list PropertyMetadata) (this : T)
    : list ValidationError :=
  omap (fun md => validateProperty md this) metadata.

(** The errors the pass reports for one property. *)
Definition errorsFor (name : string) (errors : list ValidationError)
    : list ValidationError :=
  filter (fun e => property e = name) errors.

(** The key a field has on the wire: the exposed name, or its own. *)
Definition wireName (md : PropertyMetadata) : string :=
  default (propertyName md) (expose md).

(** Modelled from the spec: the mapping of an instance to its JSON wire
    object (class-transformer followed by JSON encoding), which is not part
    of the source file.  Every field that is set appears under its wire
    name; a field left [undefined] produces no key. *)
Definition toJSON (toPlain : Obj -> Plain) (metadata : list PropertyMetadata)
    (this : T) : gmap string (JsValue Plain) :=
  foldr (fun md json =>
           match get md this with
           | JsUndefined => json
           | x => <[wireName md := mapObject toPlain x]> json
           end)
        ∅ metadata.
End Decorators.

Arguments Validator : clear implicits.
Arguments ValidationRule : clear implicits.
Arguments PropertyMetadata : clear implicits.

(** A decorator without options. *)
Definition rule {Obj} (v : Validator Obj) : ValidationRule Obj :=
  {| validator := v; message := DefaultMessage |}.

(** ** A version pattern for concrete runs *)

Definition isDigit (c : ascii) : bool :=
  (48 <=? nat_of_ascii c)%nat && (nat_of_ascii c <=? 57)%nat.

Fixpoint allDigits (s : string) : bool :=
  match s with
  | EmptyString => true
  | String c rest => isDigit c && allDigits rest
  end.

Definition isDigits (s : string) : bool :=
  negb (String.eqb s "") && allDigits s.

(** The pieces of [s] between its dots, [acc] being the piece under way. *)
Fixpoint splitDots (acc s : string) : list string :=
  match s with
  | EmptyString => [acc]
  | String c rest =>
      if Ascii.eqb c "."%char then acc :: splitDots "" rest
      else splitDots (acc ++ String c "") rest
  end.

(** Modelled from the spec: the version pattern [X.X] or [X.X.X], with [X] a
    run of decimal digits; [schemaVersionRegex] itself is defined in
    [utils], outside the source file. *)
Definition dottedVersion (s : string) : bool :=
  match splitDots "" s with
  | [a; b] => isDigits a && isDigits b
  | [a; b; c] => isDigits a && isDigits b && isDigits c
  | _ => false
  end.

(** ** ProposeCredentialMessageOptions *)

Module ProposeCredentialMessageOptions.
Record t (Attachment V1CredentialPreview : Type) := mk {
  id : option string;
  comment : option string;
  credentialProposal : option V1CredentialPreview;
  schemaIssuerDid : option string;
  schemaId : option string;
  schemaName : option string;
  schemaVersion : option string;
  credentialDefinitionId : option string;
  issuerDid : option string;
  attachments : option (list Attachment)
}.
Arguments mk {Attachment V1CredentialPreview}.
Arguments id {Attachment V1CredentialPreview}.
Arguments comment {Attachment V1CredentialPreview}.
Arguments credentialProposal {Attachment V1CredentialPreview}.
Arguments schemaIssuerDid {Attachment V1CredentialPreview}.
Arguments schemaId {Attachment V1CredentialPreview}.
Arguments schemaName {Attachment V1CredentialPreview}.
Arguments schemaVersion {Attachment V1CredentialPreview}.
Arguments credentialDefinitionId {Attachment V1CredentialPreview}.
Arguments issuerDid {Attachment V1CredentialPreview}.
Arguments attachments {Attachment V1CredentialPreview}.
End ProposeCredentialMessageOptions.

(** ** V1ProposeCredentialMessage *)

Module V1ProposeCredentialMessage.
Module Options := ProposeCredentialMessageOptions.

(** [id] and [appendedAttachments] are inherited from [AgentMessage] and
    unset until assigned. *)
Record t (Attachment V1CredentialPreview : Type) := mk {
  id : option string;
  type : string;
  comment : option string;
  credentialProposal : option V1CredentialPreview;
  schemaIssuerDid : option string;
  schemaId : option string;
  schemaName : option string;
  schemaVersion : option string;
  credentialDefinitionId : option string;
  issuerDid : option string;
  appendedAttachments : option (list Attachment)
}.
Arguments mk {Attachment V1CredentialPreview}.
Arguments id {Attachment V1CredentialPreview}.
Arguments type {Attachment V1CredentialPreview}.
Arguments comment {Attachment V1CredentialPreview}.
Arguments credentialProposal {Attachment V1CredentialPreview}.
Arguments schemaIssuerDid {Attachment V1CredentialPreview}.
Arguments schemaId {Attachment V1CredentialPreview}.
Arguments schemaName {Attachment V1CredentialPreview}.
Arguments schemaVersion {Attachment V1CredentialPreview}.
Arguments credentialDefinitionId {Attachment V1CredentialPreview}.
Arguments issuerDid {Attachment V1CredentialPreview}.
Arguments appendedAttachments {Attachment V1CredentialPreview}.

(** [public static readonly type] *)
Definition static_type : ParsedMessageType :=
  parseMessageType "https://didcomm.org/issue-credential/1.0/propose-credential".

Section Class.
Context {Attachment V1CredentialPreview : Type}.
Context `{IdSource G}.

(** The instance after [super()] and the field initialisers: only
    [type] is set. *)
Definition super : t Attachment V1CredentialPreview :=
  {| id := None;
     type := messageTypeUri static_type;
     comment := None;
     credentialProposal := None;
     schemaIssuerDid := None;
     schemaId := None;
     schemaName := None;
     schemaVersion := None;
     credentialDefinitionId := None;
     issuerDid := None;
     appendedAttachments := None |}.

(** The constructor.  [None] is a call without an options object, for
    which [if (options)] skips every assignment. *)
Definition new (options : option (Options.t Attachment V1CredentialPreview))
    (g : G) : t Attachment V1CredentialPreview * G :=
  match options with
  | Some options =>
      let '(i, g') := nullishOr (Options.id options) g in
      ({| id := Some i;
          type := type super;
          comment := Options.comment options;
          credentialProposal := Options.credentialProposal options;
          schemaIssuerDid := Options.schemaIssuerDid options;
          schemaId := Options.schemaId options;
          schemaName := Options.schemaName options;
          schemaVersion := Options.schemaVersion options;
          credentialDefinitionId := Options.credentialDefinitionId options;
          issuerDid := Options.issuerDid options;
          appendedAttachments := Options.attachments options |}, g')
  | None => (super, g)
  end.

(** An array is truthy even when empty, so the test is only on the
    field being set; [a[0]] of an array without position 0 is
    [undefined]. *)
Definition getAttachment (this : t Attachment V1CredentialPreview)
    : option Attachment :=
  match appendedAttachments this with
  | Some attachments => attachments !! 0%nat
  | None => None
  end.
End Class.

Section Metadata.
Context {Attachment V1CredentialPreview : Type}.

(** The patterns of [utils] and the validation of the nested preview are
    defined outside the source file. *)
Variables indyDidRegex schemaIdRegex schemaVersionRegex credDefIdRegex
  : string -> bool.
Variable validatePreview : V1CredentialPreview -> list ValidationError.

Definition ofPreview (v : option V1CredentialPreview)
    : JsValue V1CredentialPreview :=
  match v with
  | Some p => JsObject p
  | None => JsUndefined
  end.

(** The decorators of the data fields, in the order of the class body.
    ([id], [type] and the attachments are decorated in the base class.)
    The only objects a field of this class holds are credential previews,
    so [IsInstance(V1CredentialPreview)] accepts every object. *)
Definition metadata
    : list (PropertyMetadata (t Attachment V1CredentialPreview)
                             V1CredentialPreview) :=
  [ {| propertyName := "comment";
       get := fun this => ofString (comment this);
       expose := None;
       isOptional := true;
       rules := [rule IsString] |};
    {| propertyName := "credentialProposal";
       get := fun this => ofPreview (credentialProposal this);
       expose := Some "credential_proposal";
       isOptional := true;
       rules := [rule (ValidateNested validatePreview);
                 rule (IsInstance (fun _ => true))] |};
    {| propertyName := "schemaIssuerDid";
       get := fun this => ofString (schemaIssuerDid this);
       expose := Some "schema_issuer_did";
       isOptional := true;
       rules := [rule IsString; rule (Matches indyDidRegex)] |};
    {| propertyName := "schemaId";
       get := fun this => ofString (schemaId this);
       expose := Some "schema_id";
       isOptional := true;
       rules := [rule IsString; rule (Matches schemaIdRegex)] |};
    {| propertyName := "schemaName";
       get := fun this => ofString (schemaName this);
       expose := Some "schema_name";
       isOptional := true;
       rules := [rule IsString] |};
    {| propertyName := "schemaVersion";
       get := fun this => ofString (schemaVersion this);
       expose := Some "schema_version";
       isOptional := true;
       rules := [rule IsString;
                 {| validator := Matches schemaVersionRegex;
                    message := CustomMessage "Version must be X.X or X.X.X" |}] |};
    {| propertyName := "credentialDefinitionId";
       get := fun this => ofString (credentialDefinitionId this);
       expose := Some "cred_def_id";
       isOptional := true;
       rules := [rule IsString; rule (Matches credDefIdRegex)] |};
    {| propertyName := "issuerDid";
       get := fun this => ofString (issuerDid this);
       expose := Some "issuer_did";
       isOptional := true;
       rules := [rule IsString; rule (Matches indyDidRegex)] |} ].
End Metadata.
End V1ProposeCredentialMessage.

(** ** BatchPickupMessageOptions *)

Module BatchPickupMessageOptions.
(** [batchSize] is declared [number]; nothing enforces the declaration at
    run time, so the bundle holds an arbitrary value there, [JsUndefined]
    when the caller left it out. *)
Record t (Obj : Type) := mk {
  id : option string;
  batchSize : JsValue Obj
}.
Arguments mk {Obj}.
Arguments id {Obj}.
Arguments batchSize {Obj}.
End BatchPickupMessageOptions.

(** ** BatchPickupMessage *)

Module BatchPickupMessage.
Module Options := BatchPickupMessageOptions.

Record t (Obj : Type) := mk {
  id : option string;
  type : string;
  batchSize : JsValue Obj
}.
Arguments mk {Obj}.
Arguments id {Obj}.
Arguments type {Obj}.
Arguments batchSize {Obj}.

(** [public static readonly type] *)
Definition static_type : ParsedMessageType :=
  parseMessageType "https://didcomm.org/messagepickup/1.0/batch-pickup".

Section Class.
Context {Obj : Type}.
Context `{IdSource G}.

Definition super : t Obj :=
  {| id := None;
     type := messageTypeUri static_type;
     batchSize := JsUndefined |}.

Definition new (options : option (Options.t Obj)) (g : G) : t Obj * G :=
  match options with
  | Some options =>
      let '(i, g') := logicalOr (Options.id options) g in
      ({| id := Some i;
          type := type super;
          batchSize := Options.batchSize options |}, g')
  | None => (super, g)
  end.
End Class.

(** The decorators of the data field. *)
Definition metadata {Obj} : list (PropertyMetadata (t Obj) Obj) :=
  [ {| propertyName := "batchSize";
       get := batchSize;
       expose := Some "batch_size";
       isOptional := false;
       rules := [rule IsInt] |} ].
End BatchPickupMessage.

(** ** Concrete runs

    Identifiers come from a counter, an attachment is named by a string and
    a credential preview is its list of attribute names and values. *)

#[export] Instance counterIdSource : IdSource nat := counterGenerateId.

Definition Preview : Type := list (string * string).

(** Every pattern here is the dotted version; a preview has no errors. *)
Definition proposeMetadata
    : list (PropertyMetadata (V1ProposeCredentialMessage.t string Preview)
                             Preview) :=
  V1ProposeCredentialMessage.metadata
    dottedVersion dottedVersion dottedVersion dottedVersion (fun _ => []).

Definition proposeOptions (id version : option string)
    (attachments : option (list string))
    : ProposeCredentialMessageOptions.t string Preview :=
  {| ProposeCredentialMessageOptions.id := id;
     ProposeCredentialMessageOptions.comment := Some "please issue";
     ProposeCredentialMessageOptions.credentialProposal := Some [("name", "Alice")];
     ProposeCredentialMessageOptions.schemaIssuerDid := None;
     ProposeCredentialMessageOptions.schemaId := None;
     ProposeCredentialMessageOptions.schemaName := Some "degree";
     ProposeCredentialMessageOptions.schemaVersion := version;
     ProposeCredentialMessageOptions.credentialDefinitionId := None;
     ProposeCredentialMessageOptions.issuerDid := Some "not a did";
     ProposeCredentialMessageOptions.attachments := attachments |}.

Definition batchOptions (id : option string) (batchSize : JsValue Empty_set)
    : BatchPickupMessageOptions.t Empty_set :=
  {| BatchPickupMessageOptions.id := id;
     BatchPickupMessageOptions.batchSize := batchSize |}.

(** The doubles 10 and 2.5. *)
Definition ten : spec_float := S754_finite false 5 1.
Definition twoAndHalf : spec_float := S754_finite false 5 (-1).

(** The identifier is set and is not the empty string. *)
Definition presentNonEmpty (id : option string) : Prop :=
  exists s, id = Some s /\ s <> "".

(** The error of a field whose only failed constraint is [name]. *)
Definition fieldError (field name : string) (text : Message) : ValidationError :=
  mkValidationError field [(name, text)] [].

(** ** Bundles read back from instances

    The options interfaces name the same fields as the classes, so an
    instance can be handed back to its constructor field by field:
    [new C({ id: m.id, comment: m.comment, ... })]. *)

Definition proposeOptionsOf {Attachment V1CredentialPreview}
    (m : V1ProposeCredentialMessage.t Attachment V1CredentialPreview)
    : ProposeCredentialMessageOptions.t Attachment V1CredentialPreview :=
  {| ProposeCredentialMessageOptions.id := V1ProposeCredentialMessage.id m;
     ProposeCredentialMessageOptions.comment :=
       V1ProposeCredentialMessage.comment m;
     ProposeCredentialMessageOptions.credentialProposal :=
       V1ProposeCredentialMessage.credentialProposal m;
     ProposeCredentialMessageOptions.schemaIssuerDid :=
       V1ProposeCredentialMessage.schemaIssuerDid m;
     ProposeCredentialMessageOptions.schemaId :=
       V1ProposeCredentialMessage.schemaId m;
     ProposeCredentialMessageOptions.schemaName :=
       V1ProposeCredentialMessage.schemaName m;
     ProposeCredentialMessageOptions.schemaVersion :=
       V1ProposeCredentialMessage.schemaVersion m;
     ProposeCredentialMessageOptions.credentialDefinitionId :=
       V1ProposeCredentialMessage.credentialDefinitionId m;
     ProposeCredentialMessageOptions.issuerDid :=
       V1ProposeCredentialMessage.issuerDid m;
     ProposeCredentialMessageOptions.attachments :=
       V1ProposeCredentialMessage.appendedAttachments m |}.

Definition batchOptionsOf {Obj} (m : BatchPickupMessage.t Obj)
    : BatchPickupMessageOptions.t Obj :=
  {| BatchPickupMessageOptions.id := BatchPickupMessage.id m;
     BatchPickupMessageOptions.batchSize := BatchPickupMessage.batchSize m |}.

(** Evaluates the selection of a property's entries in a concrete table. *)
Ltac select_entries :=
  match goal with
  | |- context [filter ?P ?mds] =>
      let entries := eval vm_compute in (filter P mds) in
      change (filter P mds) with entries
  end.

(** * Properties *)

(** ** The validation pass and the wire object, for any table *)

Section DecoratorFacts.
Context {T Obj Plain : Type}.
Implicit Types (md : PropertyMetadata T Obj) (mds : list (PropertyMetadata T Obj)).
Implicit Types (this : T) (toPlain : Obj -> Plain).

Lemma validateProperty_property md this e :
  validateProperty md this = Some e -> property e = propertyName md.
Proof.
  unfold validateProperty.
  destruct (isOptional md && isEmpty (get md this)); [discriminate |].
  destruct (omap _ _), (flat_map _ _); intros [= <-]; reflexivity.
Qed.

(** The errors for one property come from the table entries of that name. *)
Lemma errorsFor_validate name mds this :
  errorsFor name (validate mds this) =
  validate (filter (fun md => propertyName md = name) mds) this.
Proof.
  unfold errorsFor, validate.
  induction mds as [| md mds IH]; [reflexivity |].
  rewrite filter_cons. cbn [omap list_omap].
  destruct (validateProperty md this) as [e |] eqn:He.
  - pose proof (validateProperty_property _ _ _ He) as Hp.
    rewrite filter_cons, Hp.
    case_decide; cbn [omap list_omap]; [rewrite He, IH; reflexivity | exact IH].
  - case_decide; [cbn [omap list_omap]; rewrite He |]; exact IH.
Qed.

Lemma toJSON_cons toPlain md mds this :
  toJSON toPlain (md :: mds) this =
  match get md this with
  | JsUndefined => toJSON toPlain mds this
  | x => <[wireName md := mapObject toPlain x]> (toJSON toPlain mds this)
  end.
Proof. reflexivity. Qed.

(** A name no entry of the table maps to is not a key of the wire object. *)
Lemma lookup_toJSON_None toPlain mds this k :
  k ∉ wireName <$> mds -> toJSON toPlain mds this !! k = None.
Proof.
  induction mds as [| md mds IH]; intros Hk; [apply lookup_empty |].
  rewrite fmap_cons, not_elem_of_cons in Hk. destruct Hk as [Hne Hk].
  rewrite toJSON_cons.
  destruct (get md this); rewrite ?lookup_insert_ne by congruence; auto.
Qed.

(** With distinct wire names, a key holds the value of its own field, and is
    there exactly when that field is set. *)
Lemma lookup_toJSON toPlain mds this md :
  NoDup (wireName <$> mds) -> md ∈ mds ->
  toJSON toPlain mds this !! wireName md =
  match get md this with
  | JsUndefined => None
  | x => Some (mapObject toPlain x)
  end.
Proof.
  induction mds as [| md' mds IH]; intros Hnd Hin; [by apply elem_of_nil in Hin |].
  rewrite fmap_cons, NoDup_cons in Hnd. destruct Hnd as [Hfresh Hnd].
  rewrite toJSON_cons.
  apply elem_of_cons in Hin as [-> | Hin].
  - destruct (get md' this) eqn:Hget; rewrite ?lookup_insert_eq; try reflexivity.
    by apply lookup_toJSON_None.
  - assert (wireName md' <> wireName md) as Hne.
    { intros Heq. apply Hfresh. rewrite Heq. by apply list_elem_of_fmap_2. }
    destruct (get md' this); rewrite ?lookup_insert_ne by done; auto.
Qed.
Lemma toJSON_table toPlain mds this :
  NoDup (wireName <$> mds) ->
  Forall (fun md =>
            toJSON toPlain mds this !! wireName md =
            match get md this with
            | JsUndefined => None
            | x => Some (mapObject toPlain x)
            end) mds.
Proof.
  intros Hnd. apply Forall_forall. intros md Hmd. by apply lookup_toJSON.
Qed.
End DecoratorFacts.

(** ** The two message classes *)

Section Messages.
Context {Attachment V1CredentialPreview Obj Plain : Type}.
Context `{IdSource G}.
Variables indyDidRegex schemaIdRegex schemaVersionRegex credDefIdRegex
  : string -> bool.
Variable validatePreview : V1CredentialPreview -> list ValidationError.
Variable previewToPlain : V1CredentialPreview -> Plain.
Variable objectToPlain : Obj -> Plain.

Local Abbreviation ProposeOptions :=
  (ProposeCredentialMessageOptions.t Attachment V1CredentialPreview).
Local Abbreviation Propose :=
  (V1ProposeCredentialMessage.t Attachment V1CredentialPreview).
Local Abbreviation proposeTable :=
  (V1ProposeCredentialMessage.metadata (Attachment := Attachment)
     indyDidRegex schemaIdRegex schemaVersionRegex credDefIdRegex
     validatePreview).
Local Abbreviation batchTable := (BatchPickupMessage.metadata (Obj := Obj)).

Lemma propose_new_fst (o : ProposeOptions) (g : G) :
  (V1ProposeCredentialMessage.new (Some o) g).1 =
  V1ProposeCredentialMessage.mk
    (Some (nullishOr (ProposeCredentialMessageOptions.id o) g).1)
    "https://didcomm.org/issue-credential/1.0/propose-credential"
    (ProposeCredentialMessageOptions.comment o)
    (ProposeCredentialMessageOptions.credentialProposal o)
    (ProposeCredentialMessageOptions.schemaIssuerDid o)
    (ProposeCredentialMessageOptions.schemaId o)
    (ProposeCredentialMessageOptions.schemaName o)
    (ProposeCredentialMessageOptions.schemaVersion o)
    (ProposeCredentialMessageOptions.credentialDefinitionId o)
    (ProposeCredentialMessageOptions.issuerDid o)
    (ProposeCredentialMessageOptions.attachments o).
Proof.
  unfold V1ProposeCredentialMessage.new.
  destruct (nullishOr _ g); reflexivity.
Qed.

Lemma batch_new_fst (o : BatchPickupMessageOptions.t Obj) (g : G) :
  (BatchPickupMessage.new (Some o) g).1 =
  BatchPickupMessage.mk
    (Some (logicalOr (BatchPickupMessageOptions.id o) g).1)
    "https://didcomm.org/messagepickup/1.0/batch-pickup"
    (BatchPickupMessageOptions.batchSize o).
Proof.
  unfold BatchPickupMessage.new.
  destruct (logicalOr _ g); reflexivity.
Qed.

Lemma proposeTable_NoDup : NoDup (wireName <$> proposeTable).
Proof. cbn. apply (bool_decide_unpack _). vm_compute. reflexivity. Qed.

(** C1. [getAttachment] returns the first of the appended attachments when
    there is one or more, and nothing when there is none: the field unset,
    or set to an array without elements. *)
Theorem getAttachment_first_or_none (this : Propose) :
  (forall a rest,
      V1ProposeCredentialMessage.appendedAttachments this = Some (a :: rest) ->
      V1ProposeCredentialMessage.getAttachment this = Some a) /\
  (V1ProposeCredentialMessage.appendedAttachments this = None \/
   V1ProposeCredentialMessage.appendedAttachments this = Some [] ->
   V1ProposeCredentialMessage.getAttachment this = None).
Proof.
  unfold V1ProposeCredentialMessage.getAttachment. split.
  - intros a rest ->. reflexivity.
  - intros [-> | ->]; reflexivity.
Qed.

(** C2, as amended.  After construction from an options bundle the
    identifier is set.  For the credential proposal it is the supplied
    identifier whenever one was supplied, the empty string included, and
    the generated one otherwise; for the batch pickup it is the supplied
    identifier when that is not the empty string, and the generated one
    otherwise.  With a generator that never yields the empty string, the
    batch pickup's identifier is never empty, and the proposal's is empty
    only if the caller supplied the empty string. *)
Theorem constructed_id (o : ProposeOptions)
    (ob : BatchPickupMessageOptions.t Obj) (g : G) :
  (forall g', (generateId g').1 <> "") ->
  let pid :=
    V1ProposeCredentialMessage.id (V1ProposeCredentialMessage.new (Some o) g).1 in
  let bid := BatchPickupMessage.id (BatchPickupMessage.new (Some ob) g).1 in
  pid = Some (default (generateId g).1 (ProposeCredentialMessageOptions.id o)) /\
  bid = Some (match BatchPickupMessageOptions.id ob with
              | Some s => if decide (s = "") then (generateId g).1 else s
              | None => (generateId g).1
              end) /\
  (ProposeCredentialMessageOptions.id o <> Some "" -> presentNonEmpty pid) /\
  presentNonEmpty bid.
Proof.
  intros Hgen pid bid. subst pid bid.
  rewrite propose_new_fst, batch_new_fst. cbn.
  unfold nullishOr, logicalOr, presentNonEmpty.
  destruct (ProposeCredentialMessageOptions.id o) as [s |],
    (BatchPickupMessageOptions.id ob) as [t |]; cbn;
    repeat case_decide; subst; cbn;
    try (destruct (String.eqb_spec t ""); [congruence | cbn]);
    repeat split; try reflexivity; intros; eauto;
    try (eexists; split; [reflexivity | congruence]).
Qed.

(** C3. Construction from an options bundle copies every data field of the
    bundle into the instance unchanged. *)
Theorem new_preserves_fields (o : ProposeOptions)
    (ob : BatchPickupMessageOptions.t Obj) (g : G) :
  let this := (V1ProposeCredentialMessage.new (Some o) g).1 in
  let batch := (BatchPickupMessage.new (Some ob) g).1 in
  V1ProposeCredentialMessage.comment this =
    ProposeCredentialMessageOptions.comment o /\
  V1ProposeCredentialMessage.credentialProposal this =
    ProposeCredentialMessageOptions.credentialProposal o /\
  V1ProposeCredentialMessage.schemaIssuerDid this =
    ProposeCredentialMessageOptions.schemaIssuerDid o /\
  V1ProposeCredentialMessage.schemaId this =
    ProposeCredentialMessageOptions.schemaId o /\
  V1ProposeCredentialMessage.schemaName this =
    ProposeCredentialMessageOptions.schemaName o /\
  V1ProposeCredentialMessage.schemaVersion this =
    ProposeCredentialMessageOptions.schemaVersion o /\
  V1ProposeCredentialMessage.credentialDefinitionId this =
    ProposeCredentialMessageOptions.credentialDefinitionId o /\
  V1ProposeCredentialMessage.issuerDid this =
    ProposeCredentialMessageOptions.issuerDid o /\
  V1ProposeCredentialMessage.appendedAttachments this =
    ProposeCredentialMessageOptions.attachments o /\
  BatchPickupMessage.batchSize batch = BatchPickupMessageOptions.batchSize ob.
Proof.
  intros this batch. subst this batch.
  rewrite propose_new_fst, batch_new_fst. repeat split.
Qed.

(** C4. The [type] of an instance is the URI of its class, whatever the
    constructor was given (an options bundle or nothing), and it is the URI
    the class records as its static message type. *)
Theorem type_is_class_constant
    (options : option ProposeOptions)
    (boptions : option (BatchPickupMessageOptions.t Obj)) (g : G) :
  V1ProposeCredentialMessage.type (V1ProposeCredentialMessage.new options g).1 =
    "https://didcomm.org/issue-credential/1.0/propose-credential" /\
  BatchPickupMessage.type (BatchPickupMessage.new boptions g).1 =
    "https://didcomm.org/messagepickup/1.0/batch-pickup" /\
  messageTypeUri V1ProposeCredentialMessage.static_type =
    "https://didcomm.org/issue-credential/1.0/propose-credential" /\
  messageTypeUri BatchPickupMessage.static_type =
    "https://didcomm.org/messagepickup/1.0/batch-pickup".
Proof.
  destruct options as [o |], boptions as [ob |];
    rewrite ?propose_new_fst, ?batch_new_fst; repeat split.
Qed.

(** C5. For a supplied schema version, the validation pass reports for
    [schemaVersion] exactly one failure, the pattern constraint with the
    text ['Version must be X.X or X.X.X'], when the version pattern does not
    match the string, and nothing when it matches. *)
Theorem schemaVersion_validation (o : ProposeOptions) (g : G) (s : string) :
  ProposeCredentialMessageOptions.schemaVersion o = Some s ->
  errorsFor "schemaVersion"
    (validate proposeTable (V1ProposeCredentialMessage.new (Some o) g).1) =
  if schemaVersionRegex s then []
  else [fieldError "schemaVersion" "matches"
          (CustomMessage "Version must be X.X or X.X.X")].
Proof.
  intros Hs. rewrite errorsFor_validate, propose_new_fst. select_entries.
  cbn. unfold validateProperty. cbn. rewrite Hs. cbn.
  destruct (schemaVersionRegex s); reflexivity.
Qed.

(** C6. The constructor checks no format: it returns an instance for every
    options bundle and stores the five identifier fields as supplied, also
    when a value violates its pattern.  The violation is reported by the
    validation pass, run on the instance afterwards. *)
Theorem new_performs_no_validation (o : ProposeOptions) (g : G) :
  exists this g',
    V1ProposeCredentialMessage.new (Some o) g = (this, g') /\
    (V1ProposeCredentialMessage.schemaIssuerDid this =
       ProposeCredentialMessageOptions.schemaIssuerDid o /\
     V1ProposeCredentialMessage.schemaId this =
       ProposeCredentialMessageOptions.schemaId o /\
     V1ProposeCredentialMessage.schemaVersion this =
       ProposeCredentialMessageOptions.schemaVersion o /\
     V1ProposeCredentialMessage.credentialDefinitionId this =
       ProposeCredentialMessageOptions.credentialDefinitionId o /\
     V1ProposeCredentialMessage.issuerDid this =
       ProposeCredentialMessageOptions.issuerDid o) /\
    (forall s,
        ProposeCredentialMessageOptions.schemaIssuerDid o = Some s ->
        indyDidRegex s = false ->
        errorsFor "schemaIssuerDid" (validate proposeTable this) =
        [fieldError "schemaIssuerDid" "matches" DefaultMessage]) /\
    (forall s,
        ProposeCredentialMessageOptions.schemaId o = Some s ->
        schemaIdRegex s = false ->
        errorsFor "schemaId" (validate proposeTable this) =
        [fieldError "schemaId" "matches" DefaultMessage]) /\
    (forall s,
        ProposeCredentialMessageOptions.schemaVersion o = Some s ->
        schemaVersionRegex s = false ->
        errorsFor "schemaVersion" (validate proposeTable this) =
        [fieldError "schemaVersion" "matches"
           (CustomMessage "Version must be X.X or X.X.X")]) /\
    (forall s,
        ProposeCredentialMessageOptions.credentialDefinitionId o = Some s ->
        credDefIdRegex s = false ->
        errorsFor "credentialDefinitionId" (validate proposeTable this) =
        [fieldError "credentialDefinitionId" "matches" DefaultMessage]) /\
    (forall s,
        ProposeCredentialMessageOptions.issuerDid o = Some s ->
        indyDidRegex s = false ->
        errorsFor "issuerDid" (validate proposeTable this) =
        [fieldError "issuerDid" "matches" DefaultMessage]).
Proof.
  pose proof (propose_new_fst o g) as Hfst.
  destruct (V1ProposeCredentialMessage.new (Some o) g) as [this g'].
  cbn in Hfst. subst this. eexists. exists g'. split; [reflexivity |].
  split; [repeat split |].
  repeat split; intros s Hs Hre; rewrite errorsFor_validate; select_entries;
    cbn; unfold validateProperty; cbn; rewrite Hs; cbn; rewrite Hre;
    reflexivity.
Qed.

(** C7. On the wire each field stands under its declared name, with the
    value the options bundle gave it; a field the bundle left out has no key;
    and no key of the wire object is the internal name of a renamed field. *)
Theorem wire_names (o : ProposeOptions)
    (ob : BatchPickupMessageOptions.t Obj) (g : G) :
  let json :=
    toJSON previewToPlain proposeTable
      (V1ProposeCredentialMessage.new (Some o) g).1 in
  let bjson :=
    toJSON objectToPlain batchTable (BatchPickupMessage.new (Some ob) g).1 in
  json !! "credential_proposal" =
    (fun p => JsObject (previewToPlain p)) <$>
      ProposeCredentialMessageOptions.credentialProposal o /\
  json !! "schema_issuer_did" =
    JsString <$> ProposeCredentialMessageOptions.schemaIssuerDid o /\
  json !! "schema_id" =
    JsString <$> ProposeCredentialMessageOptions.schemaId o /\
  json !! "schema_name" =
    JsString <$> ProposeCredentialMessageOptions.schemaName o /\
  json !! "schema_version" =
    JsString <$> ProposeCredentialMessageOptions.schemaVersion o /\
  json !! "cred_def_id" =
    JsString <$> ProposeCredentialMessageOptions.credentialDefinitionId o /\
  json !! "issuer_did" =
    JsString <$> ProposeCredentialMessageOptions.issuerDid o /\
  json !! "comment" =
    JsString <$> ProposeCredentialMessageOptions.comment o /\
  bjson !! "batch_size" =
    match BatchPickupMessageOptions.batchSize ob with
    | JsUndefined => None
    | x => Some (mapObject objectToPlain x)
    end /\
  (forall k,
      k ∈ ["credentialProposal"; "schemaIssuerDid"; "schemaId"; "schemaName";
           "schemaVersion"; "credentialDefinitionId"; "issuerDid"] ->
      json !! k = None) /\
  bjson !! "batchSize" = None.
Proof.
  intros json bjson.
  assert (forall k,
             k ∈ ["credentialProposal"; "schemaIssuerDid"; "schemaId";
                  "schemaName"; "schemaVersion"; "credentialDefinitionId";
                  "issuerDid"] ->
             json !! k = None) as Hinternal.
  { intros k Hk. apply lookup_toJSON_None. cbn.
    repeat (apply elem_of_cons in Hk as [-> | Hk]);
      [.. | by apply elem_of_nil in Hk];
      apply (bool_decide_unpack _); vm_compute; reflexivity. }
  assert (bjson !! "batchSize" = None) as Hbatch.
  { apply lookup_toJSON_None. cbn.
    apply (bool_decide_unpack _). vm_compute. reflexivity. }
  pose proof (toJSON_table previewToPlain proposeTable
                (V1ProposeCredentialMessage.new (Some o) g).1
                proposeTable_NoDup) as Hall.
  pose proof (toJSON_table objectToPlain batchTable
                (BatchPickupMessage.new (Some ob) g).1) as Hball.
  fold json in Hall. fold bjson in Hball. clearbody json bjson.
  rewrite propose_new_fst in Hall. rewrite batch_new_fst in Hball.
  unfold V1ProposeCredentialMessage.metadata in Hall.
  unfold BatchPickupMessage.metadata in Hball.
  repeat (apply Forall_cons in Hall as [?Hkey Hall]).
  apply Forall_cons in Hball as [Hsize _];
    [| cbn; apply (bool_decide_unpack _); vm_compute; reflexivity].
  cbn in *.
  repeat split; try assumption.
  all: match goal with
       | Hkey : ?j !! ?k = _ |- ?j !! ?k = _ <$> ?v =>
           rewrite Hkey; destruct v; reflexivity
       end.
Qed.

(** C8. The batch pickup constructor copies [batchSize] from the bundle as
    it is, whatever the value: a bundle without it leaves the field
    [undefined].  Only the validation pass reports a value that is not an
    integer number, as a field-level error on [batchSize]. *)
Theorem batchSize_unchecked (ob : BatchPickupMessageOptions.t Obj) (g : G) :
  exists batch g',
    BatchPickupMessage.new (Some ob) g = (batch, g') /\
    BatchPickupMessage.batchSize batch = BatchPickupMessageOptions.batchSize ob /\
    (BatchPickupMessageOptions.batchSize ob = JsUndefined ->
     BatchPickupMessage.batchSize batch = JsUndefined) /\
    validate batchTable batch =
    match BatchPickupMessageOptions.batchSize ob with
    | JsNumber n =>
        if isInteger n then []
        else [fieldError "batchSize" "isInt" DefaultMessage]
    | _ => [fieldError "batchSize" "isInt" DefaultMessage]
    end.
Proof.
  pose proof (batch_new_fst ob g) as Hfst.
  destruct (BatchPickupMessage.new (Some ob) g) as [batch g'].
  cbn in Hfst. subst batch. eexists. exists g'.
  split; [reflexivity |]. split; [reflexivity |]. split; [auto |].
  cbn. unfold validateProperty. cbn.
  destruct (BatchPickupMessageOptions.batchSize ob) as [| | b | n | s | x];
    cbn; try reflexivity.
  destruct (isInteger n); reflexivity.
Qed.

(** C9. [getAttachment] has a result in every state of the field: the first
    element of the array, if any.  On an array that is set but empty it
    takes the branch of a set field, where position 0 holds nothing, which is
    also the result for an unset field. *)
Theorem getAttachment_total_on_empty :
  (forall this : Propose,
      V1ProposeCredentialMessage.getAttachment this =
      head (default [] (V1ProposeCredentialMessage.appendedAttachments this))) /\
  (forall (this absent : Propose) attachments,
      V1ProposeCredentialMessage.appendedAttachments this = Some attachments ->
      length attachments = 0%nat ->
      V1ProposeCredentialMessage.appendedAttachments absent = None ->
      V1ProposeCredentialMessage.getAttachment this = attachments !! 0%nat /\
      attachments !! 0%nat = None /\
      V1ProposeCredentialMessage.getAttachment this =
      V1ProposeCredentialMessage.getAttachment absent).
Proof.
  unfold V1ProposeCredentialMessage.getAttachment. split.
  - intros this.
    destruct (V1ProposeCredentialMessage.appendedAttachments this)
      as [[| a rest] |]; reflexivity.
  - intros this absent attachments -> Hlen ->.
    apply nil_length_inv in Hlen as ->. repeat split.
Qed.

(** C10. An empty string given as [id] is kept by the credential proposal,
    which does not call the generator, and replaced by a generated
    identifier in the batch pickup. *)
Theorem empty_string_id (o : ProposeOptions)
    (ob : BatchPickupMessageOptions.t Obj) (g : G) :
  ProposeCredentialMessageOptions.id o = Some "" ->
  BatchPickupMessageOptions.id ob = Some "" ->
  V1ProposeCredentialMessage.id (V1ProposeCredentialMessage.new (Some o) g).1
    = Some "" /\
  (V1ProposeCredentialMessage.new (Some o) g).2 = g /\
  BatchPickupMessage.id (BatchPickupMessage.new (Some ob) g).1
    = Some (generateId g).1 /\
  (BatchPickupMessage.new (Some ob) g).2 = (generateId g).2.
Proof.
  intros Ho Hob.
  unfold V1ProposeCredentialMessage.new, BatchPickupMessage.new.
  rewrite Ho, Hob. cbn.
  destruct (generateId g) as [i g']. repeat split.
Qed.
End Messages.

(** ** The properties on concrete runs *)

Example dottedVersion_examples :
  map dottedVersion ["1.0"; "1.0.0"; "10.22"; "1"; "1.0.0.0"; "a.b"; "1..0"; ""]
  = [true; true; true; false; false; false; false; false].
Proof. reflexivity. Qed.

Example isInteger_examples :
  map isInteger [ten; twoAndHalf; S754_zero true; S754_nan; S754_infinity false]
  = [true; false; true; false; false].
Proof. reflexivity. Qed.

Lemma getAttachment_first_or_none_witness :
  V1ProposeCredentialMessage.getAttachment
    (V1ProposeCredentialMessage.new
       (Some (proposeOptions None None (Some ["a"; "b"]))) 0%nat).1
  = Some "a".
Proof.
  apply (proj1 (getAttachment_first_or_none _) "a" ["b"]). reflexivity.
Defined.

(** C2 as stated fails: the credential proposal keeps a supplied empty
    identifier, so its identifier is empty; the batch pickup does not keep
    it, so its identifier is not the supplied one. *)
Lemma empty_id_breaks_id_claim :
  ~ presentNonEmpty
      (V1ProposeCredentialMessage.id
         (V1ProposeCredentialMessage.new
            (Some (proposeOptions (Some "") None None)) 0%nat).1) /\
  BatchPickupMessage.id
    (BatchPickupMessage.new (Some (batchOptions (Some "") (JsNumber ten))) 0%nat).1
  <> Some "".
Proof.
  split.
  - intros (s & Hs & Hne). cbn in Hs. injection Hs as <-. by apply Hne.
  - cbn. discriminate.
Qed.

Lemma constructed_id_witness :
  (forall g' : nat, (generateId g').1 <> "") /\
  V1ProposeCredentialMessage.id
    (V1ProposeCredentialMessage.new
       (Some (proposeOptions (Some "abc") None None)) 3%nat).1 = Some "abc" /\
  presentNonEmpty
    (BatchPickupMessage.id
       (BatchPickupMessage.new
          (Some (batchOptions (Some "") (JsNumber ten))) 3%nat).1).
Proof.
  assert (forall g' : nat, (generateId g').1 <> "") as Hgen.
  { intros g'. cbn. unfold counterId. cbn. discriminate. }
  split; [exact Hgen |].
  destruct (constructed_id (proposeOptions (Some "abc") None None)
              (batchOptions (Some "") (JsNumber ten)) 3%nat Hgen)
    as (Hpid & _ & _ & Hbid).
  split; [exact Hpid | exact Hbid].
Defined.

Lemma schemaVersion_validation_witness :
  errorsFor "schemaVersion"
    (validate proposeMetadata
       (V1ProposeCredentialMessage.new
          (Some (proposeOptions None (Some "1") None)) 0%nat).1)
  = [fieldError "schemaVersion" "matches"
       (CustomMessage "Version must be X.X or X.X.X")] /\
  errorsFor "schemaVersion"
    (validate proposeMetadata
       (V1ProposeCredentialMessage.new
          (Some (proposeOptions None (Some "1.0") None)) 0%nat).1)
  = [].
Proof.
  split.
  - exact (schemaVersion_validation dottedVersion dottedVersion dottedVersion
             dottedVersion (fun _ => [])
             (proposeOptions None (Some "1") None) 0%nat "1" eq_refl).
  - exact (schemaVersion_validation dottedVersion dottedVersion dottedVersion
             dottedVersion (fun _ => [])
             (proposeOptions None (Some "1.0") None) 0%nat "1.0" eq_refl).
Defined.

Lemma new_performs_no_validation_witness :
  exists this g',
    V1ProposeCredentialMessage.new
      (Some (proposeOptions None (Some "1") None)) 0%nat = (this, g') /\
    V1ProposeCredentialMessage.issuerDid this = Some "not a did" /\
    errorsFor "issuerDid" (validate proposeMetadata this)
    = [fieldError "issuerDid" "matches" DefaultMessage].
Proof.
  destruct (new_performs_no_validation dottedVersion dottedVersion
              dottedVersion dottedVersion (fun _ => [])
              (proposeOptions None (Some "1") None) 0%nat)
    as (this & g' & Hnew & (_ & _ & _ & _ & Hfield) & _ & _ & _ & _ & Herr).
  exists this, g'. split; [exact Hnew |]. split; [exact Hfield |].
  apply (Herr "not a did"); reflexivity.
Defined.

Lemma wire_names_witness :
  toJSON (fun p : Preview => p) proposeMetadata
    (V1ProposeCredentialMessage.new
       (Some (proposeOptions None (Some "1.0") None)) 0%nat).1
  !! "schemaVersion" = None.
Proof.
  destruct (wire_names dottedVersion dottedVersion dottedVersion dottedVersion
              (fun _ => []) (fun p : Preview => p)
              (fun x : Empty_set => match x return Preview with end)
              (proposeOptions None (Some "1.0") None)
              (batchOptions None (JsNumber ten)) 0%nat)
    as (_ & _ & _ & _ & _ & _ & _ & _ & _ & Hinternal & _).
  apply Hinternal. apply (bool_decide_unpack _). vm_compute. reflexivity.
Defined.

Lemma batchSize_unchecked_witness :
  exists batch g',
    BatchPickupMessage.new (Some (batchOptions None JsUndefined)) 0%nat
    = (batch, g') /\
    BatchPickupMessage.batchSize batch = JsUndefined /\
    validate BatchPickupMessage.metadata batch
    = [fieldError "batchSize" "isInt" DefaultMessage].
Proof.
  destruct (batchSize_unchecked (batchOptions None JsUndefined) 0%nat)
    as (batch & g' & Hnew & _ & Hundefined & Herr).
  exists batch, g'. split; [exact Hnew |].
  split; [apply Hundefined; reflexivity | exact Herr].
Defined.

Lemma getAttachment_total_on_empty_witness :
  V1ProposeCredentialMessage.getAttachment
    (V1ProposeCredentialMessage.new
       (Some (proposeOptions None None (Some []))) 0%nat).1
  = V1ProposeCredentialMessage.getAttachment
      (V1ProposeCredentialMessage.new
         (Some (proposeOptions None None None)) 0%nat).1.
Proof.
  apply (proj2 getAttachment_total_on_empty _ _ []); reflexivity.
Defined.

Lemma empty_string_id_witness :
  V1ProposeCredentialMessage.id
    (V1ProposeCredentialMessage.new
       (Some (proposeOptions (Some "") None None)) 5%nat).1 = Some "" /\
  BatchPickupMessage.id
    (BatchPickupMessage.new
       (Some (batchOptions (Some "") (JsNumber ten))) 5%nat).1 = Some "msg-5".
Proof.
  destruct (empty_string_id (proposeOptions (Some "") None None)
              (batchOptions (Some "") (JsNumber ten)) 5%nat eq_refl eq_refl)
    as (Hpid & _ & Hbid & _).
  split; [exact Hpid | exact Hbid].
Defined.

(** ** Further properties of the constructors and the accessor *)

Section Constructors.
Context {Attachment V1CredentialPreview Obj : Type}.
Context `{IdSource G}.

Local Abbreviation ProposeOptions :=
  (ProposeCredentialMessageOptions.t Attachment V1CredentialPreview).
Local Abbreviation Propose :=
  (V1ProposeCredentialMessage.t Attachment V1CredentialPreview).

(** X1. The accessor of a newly constructed proposal returns the first
    element of the bundle's [attachments], and nothing when the bundle has
    no [attachments], has an empty array there, or was not given at all. *)
Theorem getAttachment_of_new (options : option ProposeOptions) (g : G) :
  V1ProposeCredentialMessage.getAttachment
    (V1ProposeCredentialMessage.new options g).1 =
  match options with
  | Some o =>
      match ProposeCredentialMessageOptions.attachments o with
      | Some (a :: _) => Some a
      | _ => None
      end
  | None => None
  end.
Proof.
  destruct options as [o |]; [| reflexivity].
  unfold V1ProposeCredentialMessage.new.
  destruct (nullishOr _ g) as [i g'].
  unfold V1ProposeCredentialMessage.getAttachment. cbn.
  destruct (ProposeCredentialMessageOptions.attachments o) as [[| a rest] |];
    reflexivity.
Qed.

(** X2. The proposal constructor draws an identifier from the generator
    exactly when the bundle has no [id]: with a generator that advances on
    every call, the generator is left as it was if and only if an [id] was
    supplied, and otherwise the instance gets the generator's next
    identifier and the generator is advanced once. *)
Theorem propose_generator_use (o : ProposeOptions) (g : G) :
  (forall g', (generateId g').2 <> g') ->
  ((V1ProposeCredentialMessage.new (Some o) g).2 = g <->
   is_Some (ProposeCredentialMessageOptions.id o)) /\
  (ProposeCredentialMessageOptions.id o = None ->
   V1ProposeCredentialMessage.id (V1ProposeCredentialMessage.new (Some o) g).1
     = Some (generateId g).1 /\
   (V1ProposeCredentialMessage.new (Some o) g).2 = (generateId g).2).
Proof.
  intros Hadv. unfold V1ProposeCredentialMessage.new, nullishOr.
  destruct (ProposeCredentialMessageOptions.id o) as [s |]; cbn.
  - split; [| discriminate]. split; [eauto | reflexivity].
  - specialize (Hadv g). destruct (generateId g) as [i g']; cbn in *.
    split; [| auto]. split; [contradiction | intros [? [=]]].
Qed.

(** X3. The batch pickup constructor draws an identifier from the generator
    exactly when the bundle's [id] is missing or the empty string: with a
    generator that advances on every call, the generator is left as it was
    if and only if a non-empty [id] was supplied, in which case that [id] is
    the instance's. *)
Theorem batch_generator_use (ob : BatchPickupMessageOptions.t Obj) (g : G) :
  (forall g', (generateId g').2 <> g') ->
  ((BatchPickupMessage.new (Some ob) g).2 = g <->
   exists s, BatchPickupMessageOptions.id ob = Some s /\ s <> "") /\
  (forall s,
      BatchPickupMessageOptions.id ob = Some s -> s <> "" ->
      BatchPickupMessage.id (BatchPickupMessage.new (Some ob) g).1 = Some s).
Proof.
  intros Hadv. unfold BatchPickupMessage.new, logicalOr.
  specialize (Hadv g).
  destruct (BatchPickupMessageOptions.id ob) as [s |]; cbn.
  - destruct (String.eqb_spec s "") as [-> | Hne]; cbn.
    + destruct (generateId g) as [i g']; cbn in *.
      split; [| intros ? [= <-]; congruence].
      split; [contradiction | intros (? & [= <-] & ?); congruence].
    + split; [| intros ? [= <-]; reflexivity].
      split; [eauto | reflexivity].
  - destruct (generateId g) as [i g']; cbn in *.
    split; [| discriminate].
    split; [contradiction | intros (? & [=] & _)].
Qed.

(** X4. In both classes the identifier of the instance is set if and only
    if the constructor was given an options object; without one the
    generator is not called and no data field is assigned. *)
Theorem id_set_iff_options (options : option ProposeOptions)
    (boptions : option (BatchPickupMessageOptions.t Obj)) (g : G) :
  (is_Some (V1ProposeCredentialMessage.id
              (V1ProposeCredentialMessage.new options g).1) <->
   is_Some options) /\
  (is_Some (BatchPickupMessage.id (BatchPickupMessage.new boptions g).1) <->
   is_Some boptions) /\
  (options = None ->
   V1ProposeCredentialMessage.new options g = (V1ProposeCredentialMessage.super, g)) /\
  (boptions = None ->
   BatchPickupMessage.new boptions g = (BatchPickupMessage.super, g)).
Proof.
  repeat split; try (intros ->; reflexivity).
  - destruct options; [eauto | intros [? [=]]].
  - destruct options as [o |]; [| intros [? [=]]].
    intros _. unfold V1ProposeCredentialMessage.new.
    destruct (nullishOr _ g); cbn; eauto.
  - destruct boptions; [eauto | intros [? [=]]].
  - destruct boptions as [ob |]; [| intros [? [=]]].
    intros _. unfold BatchPickupMessage.new.
    destruct (logicalOr _ g); cbn; eauto.
Qed.

(** X5. A proposal whose identifier is set and whose type is the class URI
    is rebuilt unchanged from its own fields, without a call to the
    generator. *)
Theorem propose_rebuild (m : Propose) (g : G) :
  is_Some (V1ProposeCredentialMessage.id m) ->
  V1ProposeCredentialMessage.type m =
    messageTypeUri V1ProposeCredentialMessage.static_type ->
  V1ProposeCredentialMessage.new (Some (proposeOptionsOf m)) g = (m, g).
Proof.
  intros [i Hid] Htype. destruct m; cbn in *. subst. reflexivity.
Qed.

(** X6. A batch pickup whose identifier is set and not the empty string and
    whose type is the class URI is rebuilt unchanged from its own fields,
    without a call to the generator. *)
Theorem batch_rebuild (m : BatchPickupMessage.t Obj) (g : G) (i : string) :
  BatchPickupMessage.id m = Some i -> i <> "" ->
  BatchPickupMessage.type m = messageTypeUri BatchPickupMessage.static_type ->
  BatchPickupMessage.new (Some (batchOptionsOf m)) g = (m, g).
Proof.
  intros Hid Hne Htype. destruct m; cbn in *. subst.
  unfold BatchPickupMessage.new, logicalOr. cbn.
  destruct (String.eqb_spec i ""); [contradiction | reflexivity].
Qed.

(** X7. Given the same [id], other than the empty string, the two
    constructors assign the same identifier and leave the generator in the
    same state. *)
Theorem id_paths_agree (o : ProposeOptions)
    (ob : BatchPickupMessageOptions.t Obj) (g : G) :
  ProposeCredentialMessageOptions.id o = BatchPickupMessageOptions.id ob ->
  BatchPickupMessageOptions.id ob <> Some "" ->
  V1ProposeCredentialMessage.id (V1ProposeCredentialMessage.new (Some o) g).1
    = BatchPickupMessage.id (BatchPickupMessage.new (Some ob) g).1 /\
  (V1ProposeCredentialMessage.new (Some o) g).2
    = (BatchPickupMessage.new (Some ob) g).2.
Proof.
  intros Hsame Hne.
  unfold V1ProposeCredentialMessage.new, BatchPickupMessage.new.
  unfold nullishOr, logicalOr. rewrite Hsame.
  destruct (BatchPickupMessageOptions.id ob) as [s |]; cbn.
  - destruct (String.eqb_spec s "") as [-> | _]; [congruence |].
    cbn. split; reflexivity.
  - destruct (generateId g); split; reflexivity.
Qed.

(** X8. A proposal rebuilt from the fields of a constructed one is that
    same instance, whatever bundle and generator state it came from; for a
    batch pickup this holds when the generator never yields the empty
    string. *)
Theorem new_rebuild_of_new (o : ProposeOptions)
    (ob : BatchPickupMessageOptions.t Obj) (g g2 : G) :
  (forall g', (generateId g').1 <> "") ->
  let m := (V1ProposeCredentialMessage.new (Some o) g).1 in
  let b := (BatchPickupMessage.new (Some ob) g).1 in
  V1ProposeCredentialMessage.new (Some (proposeOptionsOf m)) g2 = (m, g2) /\
  BatchPickupMessage.new (Some (batchOptionsOf b)) g2 = (b, g2).
Proof.
  intros Hgen m b. subst m b. rewrite propose_new_fst, batch_new_fst. split.
  - reflexivity.
  - assert ((logicalOr (BatchPickupMessageOptions.id ob) g).1 <> "") as Hne.
    { unfold logicalOr.
      destruct (BatchPickupMessageOptions.id ob) as [s |]; [| apply Hgen].
      cbn. destruct (String.eqb_spec s ""); cbn; [apply Hgen | assumption]. }
    destruct (logicalOr (BatchPickupMessageOptions.id ob) g) as [i g'].
    cbn in *. unfold BatchPickupMessage.new, logicalOr. cbn.
    destruct (String.eqb_spec i ""); [contradiction | reflexivity].
Qed.
End Constructors.

(** ** The further properties on concrete runs *)

Lemma propose_generator_use_witness :
  (V1ProposeCredentialMessage.new
     (Some (proposeOptions (Some "abc") None None)) 4%nat).2 = 4%nat /\
  (V1ProposeCredentialMessage.new
     (Some (proposeOptions None None None)) 4%nat).2 = 5%nat.
Proof.
  assert (forall g' : nat, (generateId g').2 <> g') as Hadv.
  { intros g'. cbn. lia. }
  split.
  - apply (proj1 (propose_generator_use
                    (proposeOptions (Some "abc") None None) 4%nat Hadv)).
    cbn. eauto.
  - apply (proj2 (propose_generator_use
                    (proposeOptions None None None) 4%nat Hadv)).
    reflexivity.
Defined.

Lemma batch_generator_use_witness :
  (BatchPickupMessage.new
     (Some (batchOptions (Some "abc") (JsNumber ten))) 4%nat).2 = 4%nat /\
  (BatchPickupMessage.new
     (Some (batchOptions (Some "") (JsNumber ten))) 4%nat).2 <> 4%nat.
Proof.
  assert (forall g' : nat, (generateId g').2 <> g') as Hadv.
  { intros g'. cbn. lia. }
  split.
  - apply (proj1 (batch_generator_use
                    (batchOptions (Some "abc") (JsNumber ten)) 4%nat Hadv)).
    exists "abc". split; [reflexivity | discriminate].
  - intros Hsame.
    apply (proj1 (batch_generator_use
                    (batchOptions (Some "") (JsNumber ten)) 4%nat Hadv))
      in Hsame as (s & [= <-] & Hne).
    by apply Hne.
Defined.

Lemma propose_rebuild_witness :
  V1ProposeCredentialMessage.new
    (Some (proposeOptionsOf
             (V1ProposeCredentialMessage.new
                (Some (proposeOptions None (Some "1.0") (Some ["a"]))) 2%nat).1))
    9%nat
  = ((V1ProposeCredentialMessage.new
        (Some (proposeOptions None (Some "1.0") (Some ["a"]))) 2%nat).1, 9%nat).
Proof.
  apply propose_rebuild; [cbn; eauto | reflexivity].
Defined.

Lemma batch_rebuild_witness :
  BatchPickupMessage.new
    (Some (batchOptionsOf
             (BatchPickupMessage.new
                (Some (batchOptions None (JsNumber ten))) 2%nat).1))
    9%nat
  = ((BatchPickupMessage.new
        (Some (batchOptions None (JsNumber ten))) 2%nat).1, 9%nat).
Proof.
  apply (batch_rebuild _ _ "msg-2"); [reflexivity | discriminate | reflexivity].
Defined.

Lemma id_paths_agree_witness :
  V1ProposeCredentialMessage.id
    (V1ProposeCredentialMessage.new
       (Some (proposeOptions None None None)) 6%nat).1
  = BatchPickupMessage.id
      (BatchPickupMessage.new (Some (batchOptions None (JsNumber ten))) 6%nat).1.
Proof.
  apply (id_paths_agree (proposeOptions None None None)
           (batchOptions None (JsNumber ten)) 6%nat);
    [reflexivity | discriminate].
Defined.

Lemma new_rebuild_of_new_witness :
  (forall g' : nat, (generateId g').1 <> "") /\
  BatchPickupMessage.new
    (Some (batchOptionsOf
             (BatchPickupMessage.new
                (Some (batchOptions (Some "") JsUndefined)) 1%nat).1))
    8%nat
  = ((BatchPickupMessage.new
        (Some (batchOptions (Some "") JsUndefined)) 1%nat).1, 8%nat).
Proof.
  assert (forall g' : nat, (generateId g').1 <> "") as Hgen.
  { intros g'. cbn. unfold counterId. cbn. discriminate. }
  split; [exact Hgen |].
  apply (new_rebuild_of_new (proposeOptions None None None)
           (batchOptions (Some "") JsUndefined) 1%nat 8%nat Hgen).
Defined.
